(** * A shallow embedding of the MCP server of [src/index.ts]

    The server registers four tools ([greeting], [calc], [current-time],
    [generate-image]), one prompt ([code_review]) and one resource
    ([server-info]).  Each handler is embedded as a Rocq function over the
    JavaScript values it manipulates:

    - JavaScript strings are [string]s holding their UTF-8 encoding;
    - JavaScript numbers are IEEE 754 binary64 values, [float];
    - plain objects are association lists of own properties in insertion order;
    - [try]/[catch] is a sum type with a bind, and the outbound call of
      [generate-image] is recorded in a log threaded through the handler.

    Built-ins of the JavaScript host that the repository does not define
    (Unicode lowercasing, shortest-digits number printing, the time zone
    database and the locale formatter) are fields of the class [Host]. *)

From Stdlib Require Import Bool List String Ascii ZArith NArith Lia.
From Stdlib.Strings Require Import Byte.
From Stdlib Require Import DecimalString Floats.
Import ListNotations.

Local Open Scope string_scope.

(** ** Strings *)

(** The characters that a Rocq string literal cannot spell directly. *)
Definition dquote : string := String "034"%char EmptyString.
Definition nl : string := String "010"%char EmptyString.

Fixpoint starts_with (p s : string) : bool :=
  match p, s with
  | EmptyString, _ => true
  | String a p', String b s' => Ascii.eqb a b && starts_with p' s'
  | String _ _, EmptyString => false
  end.

(** [includes needle hay]: [String.prototype.includes]. *)
Fixpoint includes (needle hay : string) : bool :=
  starts_with needle hay ||
  match hay with
  | EmptyString => false
  | String _ hay' => includes needle hay'
  end.

Definition is_empty (s : string) : bool :=
  match s with EmptyString => true | String _ _ => false end.

Fixpoint join (sep : string) (l : list string) : string :=
  match l with
  | [] => EmptyString
  | [x] => x
  | x :: rest => x ++ sep ++ join sep rest
  end.

(** ** JavaScript values *)

Inductive JsValue : Type :=
| JsUndefined
| JsString (s : string)
| JsNumber (x : float)
| JsNativeFunction (name : string)   (* a built-in function object *)
| JsObjectPrototype.                 (* the intrinsic %Object.prototype% *)

(** An ordinary object whose prototype is %Object.prototype%: its own
    properties, in insertion order. *)
Definition JsObject : Type := list (string * JsValue).

(** What is thrown: an instance of [Error] (with its [name] and [message]),
    or any other value. *)
Inductive Thrown : Type :=
| ThrowError (name message : string)
| ThrowValue (v : JsValue).

Definition Completion (A : Type) : Type := (Thrown + A)%type.

(** ** The host *)

Record DateTimeFormatOptions : Type := {
  timeZone : string;
  year : option string;
  month : option string;
  day : option string;
  hour : option string;
  minute : option string;
  second : option string;
  hour12 : option bool
}.

Class Host : Type := {
  (** [String.prototype.toLowerCase] *)
  toLowerCase : string -> string;
  (** [Number::toString] on the finite values that are not integers below
      2^53 in magnitude (the shortest round-trip digits) *)
  shortestDecimal : float -> string;
  (** whether [Intl.DateTimeFormat] accepts the identifier as a time zone *)
  supportedTimeZone : string -> bool;
  (** [Intl.DateTimeFormat.prototype.format] of a formatter made from a
      locale and options, at a time value in milliseconds *)
  formatDateTime : string -> DateTimeFormatOptions -> Z -> string
}.

(** ** Numbers *)

(** The value [m * 2^e] when it is an integer below 2^53. *)
Definition safe_integer (m : positive) (e : Z) : option N :=
  if (0 <=? e)%Z then
    let v := (Zpos m * 2 ^ e)%Z in
    if (v <? 2 ^ 53)%Z then Some (Z.to_N v) else None
  else
    let d := (2 ^ (- e))%Z in
    if (Zpos m mod d =? 0)%Z then Some (Z.to_N (Zpos m / d)) else None.

Definition decimal (n : N) : string := NilEmpty.string_of_uint (N.to_uint n).

(** [Number::toString] in radix 10.  An integer below 2^53 prints as its
    digits; the other finite values are left to the host. *)
Definition Number_toString `{Host} (x : float) : string :=
  match Prim2SF x with
  | S754_nan => "NaN"
  | S754_zero _ => "0"
  | S754_infinity false => "Infinity"
  | S754_infinity true => "-Infinity"
  | S754_finite s m e =>
      match safe_integer m e with
      | Some n => (if s then "-" else "") ++ decimal n
      | None => shortestDecimal x
      end
  end.

(** ** Property access, truthiness and string conversion *)

Fixpoint own_property (o : JsObject) (key : string) : option JsValue :=
  match o with
  | [] => None
  | (k, v) :: rest => if String.eqb k key then Some v else own_property rest key
  end.

(** The function-valued properties of %Object.prototype%. *)
Definition object_prototype_methods : list string :=
  [ "hasOwnProperty"; "isPrototypeOf"; "propertyIsEnumerable";
    "toLocaleString"; "toString"; "valueOf";
    "__defineGetter__"; "__defineSetter__";
    "__lookupGetter__"; "__lookupSetter__" ].

(** [Get] on %Object.prototype% with an ordinary object as receiver:
    [constructor] is the [Object] function and the [__proto__] getter returns
    the receiver's prototype, which is %Object.prototype% itself. *)
Definition object_prototype_get (key : string) : JsValue :=
  if String.eqb key "constructor" then JsNativeFunction "Object"
  else if String.eqb key "__proto__" then JsObjectPrototype
  else if existsb (String.eqb key) object_prototype_methods
       then JsNativeFunction key
  else JsUndefined.

(** [o[key]]: the own property, else the one found along the prototype
    chain. *)
Definition Get (o : JsObject) (key : string) : JsValue :=
  match own_property o key with
  | Some v => v
  | None => object_prototype_get key
  end.

Definition ToBoolean (v : JsValue) : bool :=
  match v with
  | JsUndefined => false
  | JsString s => negb (is_empty s)
  | JsNumber x => negb (PrimFloat.eqb x 0 || PrimFloat.is_nan x)
  | JsNativeFunction _ => true
  | JsObjectPrototype => true
  end.

(** [a || b] *)
Definition js_or (a b : JsValue) : JsValue := if ToBoolean a then a else b.

(** [ToString], as a template literal applies it.  A built-in function
    prints as V8 prints it. *)
Definition ToString `{Host} (v : JsValue) : string :=
  match v with
  | JsUndefined => "undefined"
  | JsString s => s
  | JsNumber x => Number_toString x
  | JsNativeFunction name => "function " ++ name ++ "() { [native code] }"
  | JsObjectPrototype => "[object Object]"
  end.

(** ** Results of the protocol library *)

Record Annotations : Type := {
  audience : list string;
  priority : float
}.

Inductive ContentItem : Type :=
| TextContent (text : string)
| ImageContent (data mimeType : string) (annotations : Annotations).

(** What a tool handler returns.  [isError] is [None] when the handler leaves
    the key out. *)
Record ToolResult : Type := {
  content : list ContentItem;
  structuredContent : option JsObject;
  isError : option bool
}.

Definition is_error (r : ToolResult) : bool :=
  match isError r with Some true => true | _ => false end.

(** ** The greeting tool *)

Definition greetings : JsObject :=
  [ ("korean", JsString "안녕하세요");
    ("english", JsString "Hello");
    ("japanese", JsString "こんにちは");
    ("chinese", JsString "你好");
    ("spanish", JsString "Hola");
    ("french", JsString "Bonjour");
    ("german", JsString "Hallo");
    ("italian", JsString "Ciao");
    ("portuguese", JsString "Olá");
    ("russian", JsString "Привет") ].

Definition greeting `{Host} (name language : string) : ToolResult :=
  let lang := toLowerCase language in
  let greetingWord := js_or (Get greetings lang) (Get greetings "english") in
  let message := ToString greetingWord ++ ", " ++ name ++ "!" in
  let output := [("greeting", JsString message)] in
  {| content := [TextContent message];
     structuredContent := Some output;
     isError := None |}.

(** ** The calc tool *)

Inductive Operator : Type := Plus | Minus | Times | Divide.

(** The members of the enum ['+', '-', '*', '/']. *)
Definition operator_string (operator : Operator) : string :=
  match operator with
  | Plus => "+"
  | Minus => "-"
  | Times => "*"
  | Divide => "/"
  end.

Definition division_by_zero_result : ToolResult :=
  {| content := [TextContent "오류: 0으로 나눌 수 없습니다"];
     structuredContent := None;
     isError := Some true |}.

(** The [switch]: either the early [return] of the division case, or the
    value assigned to [result]. *)
Definition calc_switch (num1 num2 : float) (operator : Operator)
  : ToolResult + float :=
  match operator with
  | Plus => inr (num1 + num2)%float
  | Minus => inr (num1 - num2)%float
  | Times => inr (num1 * num2)%float
  | Divide =>
      if PrimFloat.eqb num2 0 then inl division_by_zero_result
      else inr (num1 / num2)%float
  end.

Definition calc `{Host} (num1 num2 : float) (operator : Operator) : ToolResult :=
  match calc_switch num1 num2 operator with
  | inl early => early
  | inr result =>
      let message :=
        Number_toString num1 ++ " " ++ operator_string operator ++ " " ++
        Number_toString num2 ++ " = " ++ Number_toString result in
      {| content := [TextContent message];
         structuredContent := Some [("result", JsNumber result)];
         isError := None |}
  end.

(** ** The code_review prompt *)

Record PromptMessage : Type := {
  role : string;
  message_content : ContentItem
}.

Record PromptResult : Type := {
  messages : list PromptMessage
}.

(** The template up to the interpolation of [langInfo]. *)
Definition review_heading : string :=
  "다음 코드를 리뷰해주세요. 아래 항목들을 중점적으로 검토해주세요:

1. 🐛 **버그 및 오류**: 잠재적인 버그나 런타임 오류가 있는지 확인
2. 🔒 **보안 취약점**: 보안 관련 문제점이 있는지 검토
3. ⚡ **성능 최적화**: 성능을 개선할 수 있는 부분 제안
4. 📖 **가독성**: 코드의 가독성과 유지보수성 평가
5. 🏗️ **설계 패턴**: 더 나은 설계 패턴이나 구조 제안
6. ✅ **베스트 프랙티스**: 해당 언어의 모범 사례 준수 여부

".

(** The template after the closing fence. *)
Definition review_closing : string :=
  "각 항목에 대해 구체적인 피드백과 개선 제안을 해주세요.".

(** An optional argument of a handler: the string, or [undefined]. *)
Definition optional_value (a : option string) : JsValue :=
  match a with
  | Some s => JsString s
  | None => JsUndefined
  end.

Definition language_sentence (language : string) : string :=
  "이 코드는 " ++ language ++ "로 작성되었습니다." ++ nl ++ nl.

Definition code_review `{Host} (code : string) (language : option string)
  : PromptResult :=
  let langInfo :=
    if ToBoolean (optional_value language)
    then language_sentence (ToString (optional_value language))
    else EmptyString in
  {| messages :=
       [ {| role := "user";
            message_content :=
              TextContent
                (review_heading ++ langInfo ++ "리뷰할 코드:" ++ nl ++
                 "```" ++ nl ++ code ++ nl ++ "```" ++ nl ++ nl ++
                 review_closing) |} ] |}.

(** ** JSON.stringify *)

Definition hex_digit (n : N) : string :=
  String.substring (N.to_nat n) 1 "0123456789abcdef".

(** [QuoteJSONString], one code unit at a time. *)
Definition json_escape (c : ascii) : string :=
  let n := N_of_ascii c in
  if (n =? 34)%N then "\" ++ dquote
  else if (n =? 92)%N then "\\"
  else if (n =? 8)%N then "\b"
  else if (n =? 9)%N then "\t"
  else if (n =? 10)%N then "\n"
  else if (n =? 12)%N then "\f"
  else if (n =? 13)%N then "\r"
  else if (n <? 32)%N then "\u00" ++ hex_digit (n / 16) ++ hex_digit (n mod 16)
  else String c EmptyString.

Fixpoint json_escape_all (s : string) : string :=
  match s with
  | EmptyString => EmptyString
  | String c s' => json_escape c ++ json_escape_all s'
  end.

Definition json_quote (s : string) : string :=
  dquote ++ json_escape_all s ++ dquote.

Definition is_finite (x : float) : bool :=
  match Prim2SF x with
  | S754_zero _ | S754_finite _ _ _ => true
  | S754_infinity _ | S754_nan => false
  end.

(** [SerializeJSONProperty]: [None] stands for [undefined], for which the
    property is left out. *)
Definition json_property `{Host} (v : JsValue) : option string :=
  match v with
  | JsUndefined => None
  | JsString s => Some (json_quote s)
  | JsNumber x => Some (if is_finite x then Number_toString x else "null")
  | JsNativeFunction _ => None
  | JsObjectPrototype => Some "{}"
  end.

Fixpoint json_members `{Host} (colon : string) (o : JsObject) : list string :=
  match o with
  | [] => []
  | (k, v) :: rest =>
      match json_property v with
      | Some text => (json_quote k ++ colon ++ text) :: json_members colon rest
      | None => json_members colon rest
      end
  end.

Fixpoint spaces (n : nat) : string :=
  match n with
  | O => EmptyString
  | S n' => String " " (spaces n')
  end.

(** [JSON.stringify(o, null, space)] of an object of primitive values: the
    gap is [space] blanks, ten at most. *)
Definition JSON_stringify `{Host} (o : JsObject) (space : nat) : string :=
  let gap := spaces (Nat.min 10 space) in
  if is_empty gap then
    "{" ++ join "," (json_members ":" o) ++ "}"
  else
    match json_members ": " o with
    | [] => "{}"
    | members =>
        "{" ++ nl ++ gap ++ join ("," ++ nl ++ gap) members ++ nl ++ "}"
    end.

(** ** The server-info resource *)

Record URL : Type := { href : string }.

Record ResourceContents : Type := {
  uri : string;
  mimeType : string;
  text : string
}.

Record ReadResourceResult : Type := {
  contents : list ResourceContents
}.

Definition serverInfo : JsObject :=
  [ ("name", JsString "My MCP Server");
    ("version", JsString "1.0.0");
    ("status", JsString "running");
    ("uptime", JsString "72 hours 35 minutes");
    ("cpu_usage", JsString "23.5%");
    ("memory_usage", JsString "1.2GB / 8GB");
    ("disk_usage", JsString "45.2GB / 256GB");
    ("active_connections", JsNumber 142);
    ("requests_per_minute", JsNumber 1250);
    ("environment", JsString "production");
    ("region", JsString "ap-northeast-2");
    ("last_restart", JsString "2025-11-24T10:30:00Z");
    ("health_check", JsString "healthy") ].

Definition server_info `{Host} (u : URL) : ReadResourceResult :=
  {| contents :=
       [ {| uri := href u;
            mimeType := "application/json";
            text := JSON_stringify serverInfo 2 |} ] |}.

(** ** Exceptions *)

Definition bind {A B : Type} (c : Completion A) (k : A -> Completion B)
  : Completion B :=
  match c with
  | inl e => inl e
  | inr a => k a
  end.

Notation "x <- c ;; k" := (bind c (fun x => k))
  (at level 61, c at next level, right associativity).

(** [try { body } catch (error) { handler }] where both return. *)
Definition try_catch {A : Type} (body : Completion A) (handler : Thrown -> A) : A :=
  match body with
  | inr a => a
  | inl error => handler error
  end.

(** ** The current-time tool *)

Definition DateTimeFormat : Type := (string * DateTimeFormatOptions)%type.

(** [new Intl.DateTimeFormat(locale, options)]: a RangeError when the time
    zone is not one the host knows. *)
Definition new_DateTimeFormat `{Host} (locale : string)
    (options : DateTimeFormatOptions) : Completion DateTimeFormat :=
  if supportedTimeZone (timeZone options)
  then inr (locale, options)
  else inl (ThrowError "RangeError"
              ("Invalid time zone specified: " ++ timeZone options)).

Definition format `{Host} (f : DateTimeFormat) (date : Z) : string :=
  formatDateTime (fst f) (snd f) date.

Definition dateTimeOptions (timezone : string) : DateTimeFormatOptions :=
  {| timeZone := timezone;
     year := Some "numeric"; month := Some "2-digit"; day := Some "2-digit";
     hour := Some "2-digit"; minute := Some "2-digit"; second := Some "2-digit";
     hour12 := Some false |}.

Definition dateOptions (timezone : string) : DateTimeFormatOptions :=
  {| timeZone := timezone;
     year := Some "numeric"; month := Some "2-digit"; day := Some "2-digit";
     hour := None; minute := None; second := None;
     hour12 := None |}.

Definition timeOptions (timezone : string) : DateTimeFormatOptions :=
  {| timeZone := timezone;
     year := None; month := None; day := None;
     hour := Some "2-digit"; minute := Some "2-digit"; second := Some "2-digit";
     hour12 := Some false |}.

(** [now] is the time value that [new Date()] reads off the clock. *)
Definition current_time `{Host} (now : Z) (timezone : string) : ToolResult :=
  try_catch
    (dateTimeFormatter <- new_DateTimeFormat "ko-KR" (dateTimeOptions timezone) ;;
     dateFormatter <- new_DateTimeFormat "ko-KR" (dateOptions timezone) ;;
     timeFormatter <- new_DateTimeFormat "ko-KR" (timeOptions timezone) ;;
     let datetime := format dateTimeFormatter now in
     let date := format dateFormatter now in
     let time := format timeFormatter now in
     let message := "🕐 " ++ timezone ++ " 현재 시간: " ++ datetime in
     let output :=
       [ ("timezone", JsString timezone); ("datetime", JsString datetime);
         ("date", JsString date); ("time", JsString time) ] in
     inr {| content := [TextContent message];
            structuredContent := Some output;
            isError := None |})
    (fun error =>
       {| content :=
            [TextContent ("오류: 유효하지 않은 타임존입니다 - " ++ timezone)];
          structuredContent := None;
          isError := Some true |}).

(** ** The generate-image tool *)

Record Config : Type := { hfToken : string }.

Record InferenceClient : Type := { accessToken : string }.

Record TextToImageArgs : Type := {
  provider : string;
  model : string;
  inputs : string;
  num_inference_steps : float
}.

(** One request to the inference service: the credential of the client that
    sends it, and the arguments of [textToImage]. *)
Record OutboundCall : Type := {
  call_token : string;
  call_args : TextToImageArgs
}.

Definition Blob : Type := list byte.

(** The service answers a request with the image, or the call fails. *)
Definition Service : Type := OutboundCall -> Completion Blob.

(** An asynchronous computation: run against a service, it extends the log
    of the requests sent so far and completes. *)
Definition Async (A : Type) : Type :=
  Service -> list OutboundCall -> Completion A * list OutboundCall.

Definition resolve {A : Type} (a : A) : Async A :=
  fun _ log => (inr a, log).

Definition await {A B : Type} (m : Async A) (k : A -> Async B) : Async B :=
  fun service log =>
    match m service log with
    | (inl e, log') => (inl e, log')
    | (inr a, log') => k a service log'
    end.

Notation "x <~ m ;; k" := (await m (fun x => k))
  (at level 61, m at next level, right associativity).

Definition async_try_catch {A : Type} (body : Async A)
    (handler : Thrown -> Async A) : Async A :=
  fun service log =>
    match body service log with
    | (inl error, log') => handler error service log'
    | (inr a, log') => (inr a, log')
    end.

Definition textToImage (client : InferenceClient) (args : TextToImageArgs)
  : Async Blob :=
  fun service log =>
    let request := {| call_token := accessToken client; call_args := args |} in
    (service request, (log ++ [request])%list).

(** [Blob.prototype.arrayBuffer] *)
Definition Blob_arrayBuffer (blob : Blob) : Async (list byte) := resolve blob.

(** [Buffer.prototype.toString('base64')] *)
Definition base64_alphabet : string :=
  "ABCDEFGHIJKLMNOPQRSTUVWXYZabcdefghijklmnopqrstuvwxyz0123456789+/".

Definition sextet (n : N) : string :=
  String.substring (N.to_nat (n mod 64)) 1 base64_alphabet.

Fixpoint base64 (bytes : list byte) : string :=
  match bytes with
  | [] => EmptyString
  | [a] =>
      let n := (Byte.to_N a * 65536)%N in
      sextet (n / 262144) ++ sextet (n / 4096) ++ "=="
  | [a; b] =>
      let n := (Byte.to_N a * 65536 + Byte.to_N b * 256)%N in
      sextet (n / 262144) ++ sextet (n / 4096) ++ sextet (n / 64) ++ "="
  | a :: b :: c :: rest =>
      let n := (Byte.to_N a * 65536 + Byte.to_N b * 256 + Byte.to_N c)%N in
      sextet (n / 262144) ++ sextet (n / 4096) ++ sextet (n / 64) ++ sextet n
      ++ base64 rest
  end.

Definition generate_image (hfClient : InferenceClient) (prompt : string)
  : Async ToolResult :=
  async_try_catch
    (image <~ textToImage hfClient
                {| provider := "auto";
                   model := "black-forest-labs/FLUX.1-schnell";
                   inputs := prompt;
                   num_inference_steps := 5 |} ;;
     let blob := image in
     arrayBuffer <~ Blob_arrayBuffer blob ;;
     let base64Data := base64 arrayBuffer in
     resolve
       {| content :=
            [ ImageContent base64Data "image/png"
                {| audience := ["user"]; priority := 0x1.ccccccccccccdp-1 |} ];
          structuredContent := None;
          isError := None |})
    (fun error =>
       let errorMessage :=
         match error with
         | ThrowError _ message => message
         | ThrowValue _ => "알 수 없는 오류"
         end in
       resolve
         {| content := [TextContent ("이미지 생성 오류: " ++ errorMessage)];
            structuredContent := None;
            isError := Some true |}).

(** ** The registrations of [createServer] *)

Inductive ZodType : Type := ZodString | ZodNumber.

Definition Shape : Type := list (string * ZodType).

Record ToolDescriptor : Type := {
  tool_name : string;
  title : string;
  outputSchema : option Shape
}.

Definition greeting_tool : ToolDescriptor :=
  {| tool_name := "greeting";
     title := "Greeting Tool";
     outputSchema := Some [("greeting", ZodString)] |}.

Definition calc_tool : ToolDescriptor :=
  {| tool_name := "calc";
     title := "Calculator Tool";
     outputSchema := Some [("result", ZodNumber)] |}.

Definition current_time_tool : ToolDescriptor :=
  {| tool_name := "current-time";
     title := "Current Time Tool";
     outputSchema :=
       Some [ ("timezone", ZodString); ("datetime", ZodString);
              ("date", ZodString); ("time", ZodString) ] |}.

Definition generate_image_tool : ToolDescriptor :=
  {| tool_name := "generate-image";
     title := "Image Generation Tool";
     outputSchema := None |}.

(** A request for a tool, with the arguments its input schema admits. *)
Inductive ToolCall : Type :=
| CallGreeting (name language : string)
| CallCalc (num1 num2 : float) (operator : Operator)
| CallCurrentTime (timezone : string)
| CallGenerateImage (prompt : string).

Definition descriptor (call : ToolCall) : ToolDescriptor :=
  match call with
  | CallGreeting _ _ => greeting_tool
  | CallCalc _ _ _ => calc_tool
  | CallCurrentTime _ => current_time_tool
  | CallGenerateImage _ => generate_image_tool
  end.

(** The server made by [createServer({ config })], serving one request at
    clock reading [now]. *)
Definition createServer `{Host} (config : Config) (now : Z) (call : ToolCall)
  : Async ToolResult :=
  let hfClient := {| accessToken := hfToken config |} in
  match call with
  | CallGreeting name language => resolve (greeting name language)
  | CallCalc num1 num2 operator => resolve (calc num1 num2 operator)
  | CallCurrentTime timezone => resolve (current_time now timezone)
  | CallGenerateImage prompt => generate_image hfClient prompt
  end.

(** Running a handler against a service, from an empty log. *)
Definition run {A : Type} (m : Async A) (service : Service)
  : Completion A * list OutboundCall :=
  m service [].

(** The releases of the schema library: from its fourth on, a number
    schema refuses the infinities as well. *)
Inductive ZodVersion : Type := Zod3 | Zod4.

(** The values that [z.number()] accepts: never NaN, and no infinity from
    the fourth release on. *)
Definition z_number (zod : ZodVersion) (x : float) : bool :=
  match zod with
  | Zod3 => negb (PrimFloat.is_nan x)
  | Zod4 => is_finite x
  end.

(** Whether a schema member accepts a value. *)
Definition has_type (zod : ZodVersion) (v : JsValue) (t : ZodType) : bool :=
  match t, v with
  | ZodString, JsString _ => true
  | ZodNumber, JsNumber x => z_number zod x
  | _, _ => false
  end.

(** An object has the shape when it has each declared field, with a value
    the declared schema accepts, and no other field. *)
Definition matches_shape (zod : ZodVersion) (shape : Shape) (o : JsObject)
  : bool :=
  forallb (fun field =>
             match own_property o (fst field) with
             | Some v => has_type zod v (snd field)
             | None => false
             end) shape
  && forallb (fun property =>
                existsb (fun field => String.eqb (fst field) (fst property))
                  shape) o
  && Nat.eqb (List.length o) (List.length shape).

(** Whether the input schema of its tool admits the arguments of a call:
    the numbers of calc are [z.number()], every other argument is a string
    or a member of the operator enum. *)
Definition input_admitted (zod : ZodVersion) (call : ToolCall) : bool :=
  match call with
  | CallCalc num1 num2 _ => z_number zod num1 && z_number zod num2
  | _ => true
  end.

(** ** A host to evaluate examples on *)

Definition ascii_lower (c : ascii) : ascii :=
  let n := N_of_ascii c in
  if ((65 <=? n) && (n <=? 90))%N then ascii_of_N (n + 32) else c.

(** [toLowerCase] on strings whose letters are ASCII. *)
Fixpoint ascii_toLowerCase (s : string) : string :=
  match s with
  | EmptyString => EmptyString
  | String c s' => String (ascii_lower c) (ascii_toLowerCase s')
  end.

(** A host that lowercases ASCII, knows the zones UTC and Asia/Seoul, and
    formats every instant as the epoch.  The examples print no fraction, so
    its [shortestDecimal] is a placeholder. *)
Definition example_host : Host :=
  {| toLowerCase := ascii_toLowerCase;
     shortestDecimal := fun _ => "#";
     supportedTimeZone :=
       fun tz => String.eqb tz "UTC" || String.eqb tz "Asia/Seoul";
     formatDateTime :=
       fun _ options _ =>
         match year options, hour options with
         | Some _, Some _ => "1970. 01. 01. 00:00:00"
         | Some _, None => "1970. 01. 01."
         | None, _ => "00:00:00"
         end |}.






(** A service whose every call fails, and one that always answers with the
    same bytes. *)
Definition failing_service (e : Thrown) : Service := fun _ => inl e.
Definition png_service (image : Blob) : Service := fun _ => inr image.

(** The first bytes of a JPEG file. *)
Definition jpeg_magic : Blob := [xff; xd8; xff; xe0].

(** The bytes of the ASCII text foobar. *)
Definition foobar : Blob := [x66; x6f; x6f; x62; x61; x72].

(** The [mimeType] of a content item that has one. *)
Definition item_mimeType (item : ContentItem) : option string :=
  match item with
  | TextContent _ => None
  | ImageContent _ mime _ => Some mime
  end.

(** The result of [greeting] with a given message. *)
Definition greeting_result (message : string) : ToolResult :=
  {| content := [TextContent message];
     structuredContent := Some [("greeting", JsString message)];
     isError := None |}.

(** The result of [calc] with a given value and message. *)
Definition calc_result (result : float) (message : string) : ToolResult :=
  {| content := [TextContent message];
     structuredContent := Some [("result", JsNumber result)];
     isError := None |}.

(** A number is a zero, of either sign. *)
Definition is_zero (x : float) : bool :=
  match Prim2SF x with
  | S754_zero _ => true
  | _ => false
  end.

(** The result of [generate-image] with given base64 data. *)
Definition image_result (data : string) : ToolResult :=
  {| content :=
       [ ImageContent data "image/png"
           {| audience := ["user"]; priority := 0x1.ccccccccccccdp-1 |} ];
     structuredContent := None;
     isError := None |}.

(** An error-flagged result with a given message. *)
Definition error_result (message : string) : ToolResult :=
  {| content := [TextContent message];
     structuredContent := None;
     isError := Some true |}.

(** The result of [current-time] with the three formatted strings. *)
Definition time_result (timezone datetime date time : string) : ToolResult :=
  {| content :=
       [TextContent ("🕐 " ++ timezone ++ " 현재 시간: " ++ datetime)];
     structuredContent :=
       Some [ ("timezone", JsString timezone); ("datetime", JsString datetime);
              ("date", JsString date); ("time", JsString time) ];
     isError := None |}.

(** The prompt for a snippet, with the text that stands before the line
    announcing it. *)
Definition review_prompt (code info : string) : PromptResult :=
  {| messages :=
       [ {| role := "user";
            message_content :=
              TextContent
                (review_heading ++ info ++ "리뷰할 코드:" ++ nl ++
                 "```" ++ nl ++ code ++ nl ++ "```" ++ nl ++ nl ++
                 review_closing) |} ] |}.

Definition prompt_text (r : PromptResult) : string :=
  match messages r with
  | {| message_content := TextContent t |} :: _ => t
  | _ => EmptyString
  end.

(** Writes an apostrophe for each double quote, to spell JSON in a literal. *)
Fixpoint double_quotes (s : string) : string :=
  match s with
  | EmptyString => EmptyString
  | String c s' =>
      String (if Ascii.eqb c "'" then "034"%char else c) (double_quotes s')
  end.

(** The document that [server-info] serves. *)
Definition server_info_document : string :=
  double_quotes
"{
  'name': 'My MCP Server',
  'version': '1.0.0',
  'status': 'running',
  'uptime': '72 hours 35 minutes',
  'cpu_usage': '23.5%',
  'memory_usage': '1.2GB / 8GB',
  'disk_usage': '45.2GB / 256GB',
  'active_connections': 142,
  'requests_per_minute': 1250,
  'environment': 'production',
  'region': 'ap-northeast-2',
  'last_restart': '2025-11-24T10:30:00Z',
  'health_check': 'healthy'
}".

(** The request that [generate-image] sends for a prompt. *)
Definition image_request (token prompt : string) : OutboundCall :=
  {| call_token := token;
     call_args :=
       {| provider := "auto";
          model := "black-forest-labs/FLUX.1-schnell";
          inputs := prompt;
          num_inference_steps := 5 |} |}.

(** The arithmetic value of [a op b] on binary64 numbers. *)
Definition arithmetic (operator : Operator) (a b : float) : float :=
  match operator with
  | Plus => a + b
  | Minus => a - b
  | Times => a * b
  | Divide => a / b
  end%float.

(** The names that every object inherits from %Object.prototype%. *)
Definition inherited_properties : list string :=
  "constructor" :: "__proto__" :: object_prototype_methods.

(** The keys of the greeting table other than the English one. *)
Definition other_languages : list string :=
  filter (fun key => negb (String.eqb key "english")) (map fst greetings).

(** The position of a character in a string. *)
Fixpoint index_of (c : ascii) (s : string) : option N :=
  match s with
  | EmptyString => None
  | String d s' =>
      if Ascii.eqb c d then Some 0%N else option_map N.succ (index_of c s')
  end.

Definition sextet_value (c : ascii) : option N := index_of c base64_alphabet.

Definition byte_of (n : N) : byte :=
  match Byte.of_N (n mod 256) with
  | Some b => b
  | None => x00
  end.

(** Reading base64 back, four characters at a time, as a client that
    receives the image data does. *)
Fixpoint base64_decode (s : string) : option (list byte) :=
  match s with
  | EmptyString => Some []
  | String c1 (String c2 (String c3 (String c4 rest))) =>
      match sextet_value c1, sextet_value c2 with
      | Some v1, Some v2 =>
          if Ascii.eqb c3 "=" then
            if Ascii.eqb c4 "=" && is_empty rest
            then Some [byte_of ((v1 * 64 + v2) / 16)]
            else None
          else
            match sextet_value c3 with
            | Some v3 =>
                let n3 := ((v1 * 64 + v2) * 64 + v3)%N in
                if Ascii.eqb c4 "=" then
                  if is_empty rest
                  then Some [byte_of (n3 / 1024); byte_of (n3 / 4)]
                  else None
                else
                  match sextet_value c4, base64_decode rest with
                  | Some v4, Some tail =>
                      let n := (n3 * 64 + v4)%N in
                      Some (byte_of (n / 65536) :: byte_of (n / 256)
                              :: byte_of n :: tail)
                  | _, _ => None
                  end
            | None => None
            end
      | _, _ => None
      end
  | _ => None
  end.

(** What [sextet] writes for an index below 64 is one character of the
    alphabet, found back at that index, and never the padding. *)
Definition sextet_checked (i : nat) : bool :=
  match String.substring i 1 base64_alphabet with
  | String c EmptyString =>
      match sextet_value c with
      | Some v => N.eqb v (N.of_nat i) && negb (Ascii.eqb c "=")
      | None => false
      end
  | _ => false
  end.

(** The operands of a product that overflows. *)
#[warnings="-inexact-float"]
Definition huge : float := 1e308.

(** A call whose arguments the input schema admits and whose result is not
    flagged, yet carries structured content that the declared output shape
    refuses. *)
Definition output_refused `{Host} (zod : ZodVersion) (config : Config)
    (now : Z) (service : Service) (call : ToolCall) (o : JsObject) : Prop :=
  input_admitted zod call = true /\
  exists r shape,
    fst (run (createServer config now call) service) = inr r /\
    is_error r = false /\
    outputSchema (descriptor call) = Some shape /\
    structuredContent r = Some o /\
    matches_shape zod shape o = false.

(** * Properties *)

(** ** Strings *)

Lemma starts_with_app (p t : string) : starts_with p (p ++ t) = true.
Proof.
  induction p as [|a p IH]; simpl.
  - reflexivity.
  - now rewrite Ascii.eqb_refl.
Qed.

Lemma starts_with_inv (p s : string) :
  starts_with p s = true -> exists t, s = p ++ t.
Proof.
  revert s; induction p as [|a p IH]; intros s Hs.
  - now exists s.
  - destruct s as [|b s]; simpl in Hs; [discriminate|].
    apply andb_true_iff in Hs as [Hab Hps].
    apply Ascii.eqb_eq in Hab; subst b.
    destruct (IH _ Hps) as [t ->].
    now exists t.
Qed.

Lemma includes_unfold (needle hay : string) :
  includes needle hay =
  starts_with needle hay ||
  match hay with
  | EmptyString => false
  | String _ hay' => includes needle hay'
  end.
Proof. destruct hay; reflexivity. Qed.

Lemma includes_app (pre needle post : string) :
  includes needle (pre ++ needle ++ post) = true.
Proof.
  induction pre as [|a pre IH]; simpl.
  - rewrite includes_unfold, starts_with_app. reflexivity.
  - rewrite IH. apply orb_true_r.
Qed.

Lemma includes_inv (needle hay : string) :
  includes needle hay = true -> exists pre post, hay = pre ++ needle ++ post.
Proof.
  induction hay as [|a hay IH]; simpl; intros H.
  - rewrite orb_false_r in H.
    destruct (starts_with_inv _ _ H) as [t Ht].
    exists EmptyString, t. exact Ht.
  - apply orb_true_iff in H as [H|H].
    + destruct (starts_with_inv _ _ H) as [t Ht].
      exists EmptyString, t. exact Ht.
    + destruct (IH H) as (pre & post & ->).
      exists (String a pre), post. reflexivity.
Qed.

(** [includes] decides being a substring. *)
Lemma includes_spec (needle hay : string) :
  includes needle hay = true <-> exists pre post, hay = pre ++ needle ++ post.
Proof.
  split.
  - apply includes_inv.
  - intros (pre & post & ->). apply includes_app.
Qed.

Lemma includes_suffix (pre needle : string) :
  includes needle (pre ++ needle) = true.
Proof.
  apply includes_spec. exists pre, EmptyString.
  f_equal. clear. induction needle; simpl; congruence.
Qed.

(** ** greeting *)

Section Greeting.
Context {host : Host}.

(** Every word of the table is a non-empty string. *)
Lemma greetings_words (key : string) (v : JsValue) :
  own_property greetings key = Some v ->
  exists word, v = JsString word /\ is_empty word = false.
Proof.
  unfold greetings; simpl.
  repeat match goal with
         | |- (if ?c then _ else _) = _ -> _ =>
             destruct c; [intros [= <-]; eexists; split; reflexivity|]
         end.
  discriminate.
Qed.

(** A language whose lowercase form is a key of the table is greeted with
    the word of the table. *)
Lemma greeting_supported (name language word : string) :
  own_property greetings (toLowerCase language) = Some (JsString word) ->
  greeting name language = greeting_result (word ++ ", " ++ name ++ "!").
Proof.
  intros Hown.
  destruct (greetings_words _ _ Hown) as (w & [= <-] & Hne).
  unfold greeting, Get, js_or. rewrite Hown. simpl.
  rewrite Hne. reflexivity.
Qed.

(** A language whose lowercase form names no property at all, own or
    inherited, is greeted in English. *)
Lemma greeting_fallback (name language : string) :
  own_property greetings (toLowerCase language) = None ->
  object_prototype_get (toLowerCase language) = JsUndefined ->
  greeting name language = greeting_result ("Hello, " ++ name ++ "!").
Proof.
  intros Hown Hproto.
  unfold greeting, Get, js_or. rewrite Hown, Hproto. reflexivity.
Qed.

(** C1, at the language "constructor": it is not a key of the table, yet
    the lookup finds the property that every object inherits, and the
    greeting is the printed [Object] function instead of the English
    word. *)
Theorem greeting_constructor_not_english (name : string) :
  toLowerCase "constructor" = "constructor" ->
  own_property greetings (toLowerCase "constructor") = None /\
  greeting name "constructor" =
    greeting_result ("function Object() { [native code] }, " ++ name ++ "!") /\
  greeting name "constructor" <> greeting_result ("Hello, " ++ name ++ "!").
Proof.
  intros Hlower.
  assert (Hg : greeting name "constructor" =
               greeting_result
                 ("function Object() { [native code] }, " ++ name ++ "!")).
  { unfold greeting. rewrite Hlower. reflexivity. }
  rewrite Hlower. repeat split.
  - exact Hg.
  - rewrite Hg. unfold greeting_result. intros [= Habs].
Qed.
End Greeting.

(** The table has ten entries. *)
Example greetings_ten : List.length greetings = 10.
Proof. reflexivity. Qed.

(** The same happens at "__proto__", whose getter returns the prototype
    object. *)
Example greeting_proto :
  @greeting example_host "Bob" "__proto__" =
  greeting_result "[object Object], Bob!".
Proof. reflexivity. Qed.

Example greeting_korean_uppercase :
  @greeting example_host "Bob" "KOREAN" = greeting_result "안녕하세요, Bob!".
Proof. reflexivity. Qed.

Example greeting_klingon :
  @greeting example_host "Bob" "Klingon" = greeting_result "Hello, Bob!".
Proof. reflexivity. Qed.

Lemma greeting_constructor_witness :
  @toLowerCase example_host "constructor" = "constructor" /\
  @greeting example_host "Bob" "constructor" <> greeting_result "Hello, Bob!".
Proof.
  split; [reflexivity|].
  apply (@greeting_constructor_not_english example_host "Bob"). reflexivity.
Defined.

(** ** calc *)

(** [num2 === 0] holds of the two zeros and of nothing else. *)
Lemma strict_equal_zero (x : float) : PrimFloat.eqb x 0 = is_zero x.
Proof.
  rewrite eqb_spec. unfold is_zero.
  change (Prim2SF 0) with (S754_zero false).
  destruct (Prim2SF x) as [s|s| |s m e]; try destruct s; reflexivity.
Qed.

Section Calc.
Context {host : Host}.

(** C2: dividing by a zero gives the error result, with no numeric
    result; dividing by anything else gives a result that is not flagged
    and carries the quotient. *)
Theorem calc_division (a b : float) :
  (is_zero b = true ->
     calc a b Divide = division_by_zero_result /\
     is_error (calc a b Divide) = true /\
     structuredContent (calc a b Divide) = None) /\
  (is_zero b = false ->
     is_error (calc a b Divide) = false /\
     isError (calc a b Divide) = None /\
     structuredContent (calc a b Divide) = Some [("result", JsNumber (a / b))]).
Proof.
  unfold calc, calc_switch. rewrite strict_equal_zero.
  split; intros ->; repeat split.
Qed.

(** C6: outside the division by a zero, the result is the arithmetic
    value and the message spells the operation; so six times three is 18,
    with the message "6 * 3 = 18". *)
Theorem calc_arithmetic :
  (forall (a b : float) (operator : Operator),
      (operator = Divide -> is_zero b = false) ->
      calc a b operator =
        calc_result (arithmetic operator a b)
          (Number_toString a ++ " " ++ operator_string operator ++ " " ++
           Number_toString b ++ " = " ++
           Number_toString (arithmetic operator a b))) /\
  calc 6 3 Times = calc_result 18 "6 * 3 = 18".
Proof.
  split; [|reflexivity].
  intros a b operator Hdiv. unfold calc, calc_switch.
  destruct operator; try reflexivity.
  rewrite strict_equal_zero, (Hdiv eq_refl). reflexivity.
Qed.
End Calc.

Lemma calc_division_witness :
  is_error (@calc example_host 6 0 Divide) = true /\
  is_error (@calc example_host 6 (-0) Divide) = true /\
  structuredContent (@calc example_host 6 3 Divide) =
    Some [("result", JsNumber 2)].
Proof.
  split; [|split].
  - apply (@calc_division example_host 6 0). reflexivity.
  - apply (@calc_division example_host 6 (-0)). reflexivity.
  - apply (@calc_division example_host 6 3). reflexivity.
Defined.

Lemma calc_arithmetic_witness :
  @calc example_host 7 2 Minus = calc_result 5 "7 - 2 = 5" /\
  @calc example_host 6 3 Divide = calc_result 2 "6 / 3 = 2".
Proof.
  split.
  - apply (proj1 (@calc_arithmetic example_host) 7%float 2%float Minus).
    discriminate.
  - apply (proj1 (@calc_arithmetic example_host) 6%float 3%float Divide).
    reflexivity.
Defined.

(** ** base64 *)

Lemma length_append (s t : string) :
  String.length (s ++ t) = String.length s + String.length t.
Proof. induction s as [|c s IH]; simpl; congruence. Qed.

Lemma substring_one (s : string) (i : nat) :
  i < String.length s -> String.length (String.substring i 1 s) = 1.
Proof.
  revert i; induction s as [|c s IH]; simpl; intros i Hi.
  - lia.
  - destruct i as [|i]; simpl.
    + now destruct s.
    + apply IH. lia.
Qed.

Lemma sextet_length (n : N) : String.length (sextet n) = 1.
Proof.
  unfold sextet. apply substring_one.
  change (String.length base64_alphabet) with 64.
  pose proof (N.mod_upper_bound n 64). lia.
Qed.

(** Induction over a list three elements at a time, as [base64] recurses. *)
Lemma list_ind3 {A : Type} (P : list A -> Prop) :
  P [] -> (forall a, P [a]) -> (forall a b, P [a; b]) ->
  (forall a b c l, P l -> P (a :: b :: c :: l)) ->
  forall l, P l.
Proof.
  intros H0 H1 H2 H3 l.
  enough (P l /\ (forall a, P (a :: l)) /\ (forall a b, P (a :: b :: l)))
    by tauto.
  induction l as [|x l (IHl & IH1 & IH2)]; auto.
Qed.

(** Every three bytes, and a final one or two, give four characters. *)
Lemma base64_length (bytes : list byte) :
  String.length (base64 bytes) = 4 * ((List.length bytes + 2) / 3).
Proof.
  induction bytes as [|a|a b|a b c rest IH] using list_ind3.
  - reflexivity.
  - simpl base64. rewrite !length_append, !sextet_length. reflexivity.
  - simpl base64. rewrite !length_append, !sextet_length. reflexivity.
  - change (base64 (a :: b :: c :: rest))
      with (let n := (Byte.to_N a * 65536 + Byte.to_N b * 256 + Byte.to_N c)%N in
            sextet (n / 262144) ++ sextet (n / 4096) ++ sextet (n / 64) ++
            sextet n ++ base64 rest).
    cbv zeta. rewrite !length_append, !sextet_length, IH.
    simpl List.length.
    replace (S (S (S (List.length rest))) + 2)
      with ((List.length rest + 2) + 1 * 3) by lia.
    rewrite Nat.div_add by discriminate. lia.
Qed.

(** The test vectors of RFC 4648. *)
Example base64_rfc4648 :
  map base64 [ []; [x66]; [x66; x6f]; [x66; x6f; x6f]; [x66; x6f; x6f; x62];
               [x66; x6f; x6f; x62; x61]; foobar ] =
  [ EmptyString; "Zg=="; "Zm8="; "Zm9v"; "Zm9vYg=="; "Zm9vYmE="; "Zm9vYmFy" ].
Proof. reflexivity. Qed.

(** ** generate-image *)

Section GenerateImage.
Variable client : InferenceClient.
Variable prompt : string.
Variable service : Service.

Ltac run_handler :=
  unfold run, generate_image, async_try_catch, await, textToImage,
    Blob_arrayBuffer, resolve, image_request in *;
  simpl.

(** The handler sends its request once, whatever the service answers. *)
Lemma generate_image_log :
  snd (run (generate_image client prompt) service) =
    [image_request (accessToken client) prompt].
Proof. run_handler. destruct (service _); reflexivity. Qed.

(** The handler completes with a result: nothing is thrown past it. *)
Lemma generate_image_returns :
  exists r, fst (run (generate_image client prompt) service) = inr r.
Proof. run_handler. destruct (service _); eexists; reflexivity. Qed.

Lemma generate_image_success (image : Blob) :
  service (image_request (accessToken client) prompt) = inr image ->
  fst (run (generate_image client prompt) service) =
    inr (image_result (base64 image)).
Proof. intros Hok. run_handler. rewrite Hok. reflexivity. Qed.

(** C3, amended: when the call fails, the handler returns an error-flagged
    result and throws nothing.  The text carries the message of the failure
    when the failure is an instance of Error, and a fixed text otherwise. *)
Theorem generate_image_failure (error : Thrown) :
  service (image_request (accessToken client) prompt) = inl error ->
  exists text,
    fst (run (generate_image client prompt) service) = inr (error_result text) /\
    (forall name message,
        error = ThrowError name message ->
        text = "이미지 생성 오류: " ++ message /\ includes message text = true) /\
    (forall v,
        error = ThrowValue v -> text = "이미지 생성 오류: 알 수 없는 오류").
Proof.
  intros Hfail. run_handler. rewrite Hfail. simpl.
  destruct error as [name message|v]; eexists; (split; [reflexivity|]); split.
  - intros name' message' [= _ <-]. split; [reflexivity|].
    exact (includes_suffix "이미지 생성 오류: " message).
  - discriminate.
  - discriminate.
  - reflexivity.
Qed.

(** C8: whatever bytes the service returns, the image item of the result is
    labelled image/png. *)
Theorem generate_image_mime_type (image : Blob) :
  service (image_request (accessToken client) prompt) = inr image ->
  exists r,
    fst (run (generate_image client prompt) service) = inr r /\
    is_error r = false /\
    map item_mimeType (content r) = [Some "image/png"].
Proof.
  intros Hok. exists (image_result (base64 image)).
  split; [|split; reflexivity].
  run_handler. rewrite Hok. reflexivity.
Qed.
End GenerateImage.

(** C3, as stated, fails when what is thrown is not an Error: a thrown
    string is not shown in the result. *)
Lemma generate_image_thrown_string :
  fst (run (generate_image {| accessToken := "hf_token" |} "a cat")
         (failing_service (ThrowValue (JsString "quota exceeded")))) =
    inr (error_result "이미지 생성 오류: 알 수 없는 오류") /\
  includes "quota exceeded" "이미지 생성 오류: 알 수 없는 오류" = false.
Proof. split; reflexivity. Qed.

Lemma generate_image_failure_witness :
  exists text,
    fst (run (generate_image {| accessToken := "hf_token" |} "a cat")
           (failing_service (ThrowError "Error" "quota exceeded"))) =
      inr (error_result text) /\
    includes "quota exceeded" text = true.
Proof.
  destruct (generate_image_failure {| accessToken := "hf_token" |} "a cat"
              (failing_service (ThrowError "Error" "quota exceeded"))
              (ThrowError "Error" "quota exceeded") eq_refl)
    as (text & Hrun & Herror & _).
  exists text. split; [exact Hrun|].
  exact (proj2 (Herror "Error" "quota exceeded" eq_refl)).
Defined.

Lemma generate_image_mime_type_witness :
  exists r,
    fst (run (generate_image {| accessToken := "hf_token" |} "a cat")
           (png_service jpeg_magic)) = inr r /\
    is_error r = false /\
    map item_mimeType (content r) = [Some "image/png"].
Proof.
  exact (generate_image_mime_type {| accessToken := "hf_token" |} "a cat"
           (png_service jpeg_magic) jpeg_magic eq_refl).
Defined.

(** C7: serving generate-image sends exactly one request, with the
    configured token, the fixed model and five inference steps; when the
    service answers with an image, the result is one image item holding its
    base64 encoding. *)
Theorem generate_image_outbound_call (host : Host) (config : Config) (now : Z)
    (prompt : string) (service : Service) :
  snd (run (createServer config now (CallGenerateImage prompt)) service) =
    [ {| call_token := hfToken config;
         call_args :=
           {| provider := "auto";
              model := "black-forest-labs/FLUX.1-schnell";
              inputs := prompt;
              num_inference_steps := 5 |} |} ] /\
  (forall image : Blob,
      service (image_request (hfToken config) prompt) = inr image ->
      fst (run (createServer config now (CallGenerateImage prompt)) service) =
        inr {| content :=
                 [ ImageContent (base64 image) "image/png"
                     {| audience := ["user"];
                        priority := 0x1.ccccccccccccdp-1 |} ];
               structuredContent := None;
               isError := None |}).
Proof.
  split.
  - apply (generate_image_log {| accessToken := hfToken config |}).
  - intros image Hok.
    apply (generate_image_success {| accessToken := hfToken config |}).
    exact Hok.
Qed.

Lemma generate_image_outbound_call_witness :
  run (@createServer example_host {| hfToken := "hf_token" |} 0
         (CallGenerateImage "a cat"))
      (png_service foobar) =
    (inr (image_result "Zm9vYmFy"), [image_request "hf_token" "a cat"]).
Proof.
  destruct (generate_image_outbound_call example_host {| hfToken := "hf_token" |}
              0 "a cat" (png_service foobar))
    as [Hlog Hresult].
  specialize (Hresult _ eq_refl).
  destruct (run _ _) as [result log]. simpl in Hlog, Hresult.
  rewrite Hlog, Hresult. reflexivity.
Defined.

(** ** current-time *)

Section CurrentTime.
Context {host : Host}.

(** The formatter of the host prints something for every zone it knows. *)
Hypothesis format_nonempty :
  forall locale options date,
    supportedTimeZone (timeZone options) = true ->
    formatDateTime locale options date <> EmptyString.

End CurrentTime.




Example current_time_utc :
  @current_time example_host 0 "UTC" =
  time_result "UTC" "1970. 01. 01. 00:00:00" "1970. 01. 01." "00:00:00".
Proof. reflexivity. Qed.

(** ** Declared output shapes *)

(** C5, at two calls of calc: the handler returns whatever the arithmetic
    gives, and the number schema it declares for [result] refuses what is
    not a finite number.  A product of finite operands that overflows is an
    infinity, which the schema refuses from its fourth release on; before
    that release the schema admits infinite operands, and their difference
    is NaN, which every release refuses. *)
Theorem calc_output_refused (host : Host) (config : Config) (now : Z)
    (service : Service) :
  output_refused Zod4 config now service (CallCalc huge 10 Times)
    [("result", JsNumber infinity)] /\
  output_refused Zod3 config now service (CallCalc infinity infinity Minus)
    [("result", JsNumber nan)].
Proof.
  split; (split; [reflexivity|]); eexists; eexists;
    (split; [reflexivity|]); repeat split.
Qed.

(** The shape is checked for real: a missing, an ill-typed and an extra
    field are refused. *)
Example matches_shape_refuses :
  matches_shape Zod3 [("result", ZodNumber)] [] = false /\
  matches_shape Zod3 [("result", ZodNumber)] [("result", JsString "18")] = false /\
  matches_shape Zod3 [("result", ZodNumber)]
    [("result", JsNumber 18); ("note", JsString "x")] = false.
Proof. repeat split. Qed.



(** ** server-info *)

(** C9: the resource serves one fixed document: its text is the same
    literal JSON for every host and every URI it is read at, so any two
    reads return the same text. *)
Theorem server_info_fixed (host : Host) (u : URL) :
  server_info u =
    {| contents :=
         [ {| uri := href u;
              mimeType := "application/json";
              text := server_info_document |} ] |} /\
  (forall (host' : Host) (u' : URL),
      map text (contents (@server_info host' u')) =
      map text (contents (server_info u))).
Proof.
  assert (Hdoc : forall h : Host,
             @JSON_stringify h serverInfo 2 = server_info_document)
    by (intros h; vm_compute; reflexivity).
  unfold server_info. split.
  - rewrite Hdoc. reflexivity.
  - intros host' u'. simpl. rewrite !Hdoc. reflexivity.
Qed.

(** ** code_review *)

Section CodeReview.
Context {host : Host}.

(** C10, amended: the prompt is the fixed text with the snippet between
    the fences; the sentence naming the language stands before it when a
    non-empty language is given, and is left out when the language is absent
    or empty. *)
Theorem code_review_text (code : string) :
  (forall language : string,
      language <> EmptyString ->
      code_review code (Some language) =
        review_prompt code
          ("이 코드는 " ++ language ++ "로 작성되었습니다." ++ nl ++ nl)) /\
  code_review code (Some EmptyString) = review_prompt code EmptyString /\
  code_review code None = review_prompt code EmptyString.
Proof.
  repeat split.
  intros [|c language] Hne; [contradiction|reflexivity].
Qed.
End CodeReview.

Lemma code_review_text_witness :
  @code_review example_host "x = 1" (Some "python") =
    review_prompt "x = 1"
      ("이 코드는 python로 작성되었습니다." ++ nl ++ nl) /\
  includes "이 코드는 python로 작성되었습니다."
    (prompt_text (@code_review example_host "x = 1" (Some "python"))) = true.
Proof.
  split.
  - apply (proj1 (@code_review_text example_host "x = 1") "python").
    discriminate.
  - reflexivity.
Defined.

(** C10, as stated, fails for a language that is supplied but empty: no
    sentence names it, and the prompt is the one of an absent language. *)
Lemma code_review_empty_language :
  includes (language_sentence EmptyString)
    (prompt_text (@code_review example_host "x = 1" (Some EmptyString))) = false /\
  @code_review example_host "x = 1" (Some EmptyString) =
  @code_review example_host "x = 1" None.
Proof. split; reflexivity. Qed.

(** ** greeting, for every language *)

Section GreetingCases.
Context {host : Host}.

(** A language in the list of the other table keys or of the inherited
    names is not greeted in English. *)
Lemma greeting_not_english (name language : string) :
  In (toLowerCase language) (other_languages ++ inherited_properties) ->
  greeting name language <> greeting_result ("Hello, " ++ name ++ "!").
Proof.
  unfold greeting. intros Hin.
  cbv [other_languages inherited_properties object_prototype_methods
       greetings map filter fst String.eqb Ascii.eqb Bool.eqb negb app] in Hin.
  simpl in Hin.
  repeat match type of Hin with
         | _ \/ _ => destruct Hin as [<-|Hin]; [intros [= ]|]
         end.
  contradiction.
Qed.

Ltac decide_key Hnot :=
  match goal with
  | |- context [String.eqb ?a ?b] =>
      let Heq := fresh "Heq" in
      destruct (String.eqb_spec a b) as [Heq|_];
      [ try (exfalso; apply Hnot; first [rewrite <- Heq | rewrite Heq];
             simpl; tauto)
      | ]
  end.

(** Which languages get the English greeting: exactly those whose lowercase
    form is neither another key of the table nor a name that the table
    inherits. *)
Theorem greeting_english_iff (name language : string) :
  greeting name language = greeting_result ("Hello, " ++ name ++ "!") <->
  ~ In (toLowerCase language) (other_languages ++ inherited_properties).
Proof.
  split.
  - intros Heq Hin. exact (greeting_not_english name language Hin Heq).
  - intros Hnot. unfold greeting.
    change (Get greetings "english") with (JsString "Hello").
    unfold Get, js_or, object_prototype_get.
    generalize dependent (toLowerCase language). intros lang Hnot.
    cbv [own_property greetings object_prototype_methods existsb orb].
    repeat decide_key Hnot; reflexivity.
Qed.

(** The greeting is a non-empty word, fixed by the language alone, followed
    by the name as it was given. *)
Theorem greeting_word (language : string) :
  exists word,
    word <> EmptyString /\
    forall name, greeting name language = greeting_result (word ++ ", " ++ name ++ "!").
Proof.
  exists (ToString (js_or (Get greetings (toLowerCase language))
                      (Get greetings "english"))).
  split; [|reflexivity].
  unfold Get. destruct (own_property greetings (toLowerCase language)) as [v|] eqn:Hown.
  - destruct (greetings_words _ _ Hown) as (word & -> & Hne).
    unfold js_or. simpl. rewrite Hne. simpl.
    destruct word; [discriminate Hne|discriminate].
  - unfold object_prototype_get.
    destruct (String.eqb _ "constructor"); [discriminate|].
    destruct (String.eqb _ "__proto__"); [discriminate|].
    destruct (existsb _ _); discriminate.
Qed.
End GreetingCases.

Lemma greeting_supported_witness :
  @greeting example_host "Ada" "Japanese" = greeting_result "こんにちは, Ada!".
Proof.
  exact (@greeting_supported example_host "Ada" "Japanese" "こんにちは" eq_refl).
Defined.

(** ** calc, its error path *)

(** [calc] flags an error for the division by a zero and for nothing else:
    no other operator and no other divisor, be it NaN or an infinity, is
    refused. *)
Theorem calc_error_iff (host : Host) (a b : float) (operator : Operator) :
  is_error (calc a b operator) = true <-> operator = Divide /\ is_zero b = true.
Proof.
  unfold calc, calc_switch. rewrite strict_equal_zero.
  destruct operator; simpl.
  1-3: split; [discriminate | intros [[=] _]].
  destruct (is_zero b); simpl; split; try discriminate; auto.
  intros [_ [=]].
Qed.

(** ** The server as a whole *)

Section Server.
Context {host : Host}.
Variable config : Config.
Variable now : Z.
Variable service : Service.

Ltac serve :=
  unfold createServer, generate_image, async_try_catch, await, textToImage,
    Blob_arrayBuffer, resolve in *;
  simpl.

(** Whatever the request and the service, the server answers with a result
    and throws nothing; the result holds exactly one content item, and one
    flagged as an error is a text with no structured content. *)
Theorem createServer_result (call : ToolCall) (log : list OutboundCall) :
  exists r,
    fst (createServer config now call service log) = inr r /\
    List.length (content r) = 1 /\
    (is_error r = true ->
     (exists message, content r = [TextContent message]) /\
     structuredContent r = None).
Proof.
  destruct call as [name language|num1 num2 operator|timezone|prompt]; serve.
  - eexists. split; [reflexivity|]. split; [reflexivity|]. discriminate.
  - eexists. split; [reflexivity|]. unfold calc, calc_switch.
    destruct operator; try (split; [reflexivity|discriminate]).
    destruct (PrimFloat.eqb num2 0); (split; [reflexivity|]).
    + intros _. split; [eexists|]; reflexivity.
    + discriminate.
  - eexists. split; [reflexivity|].
    unfold current_time, new_DateTimeFormat. simpl.
    destruct (supportedTimeZone timezone); simpl; (split; [reflexivity|]).
    + discriminate.
    + intros _. split; [eexists|]; reflexivity.
  - destruct (service _) as [error|image]; simpl;
      eexists; (split; [reflexivity|]); (split; [reflexivity|]).
    + intros _. split; [eexists|]; reflexivity.
    + discriminate.
Qed.

(** Only generate-image reaches the service: the three other tools send no
    request, and their result is the same whatever the service would
    answer. *)
Theorem local_tools_send_nothing (call : ToolCall) (log : list OutboundCall) :
  (forall prompt, call <> CallGenerateImage prompt) ->
  snd (createServer config now call service log) = log /\
  forall (service' : Service) (log' : list OutboundCall),
    fst (createServer config now call service' log') =
    fst (createServer config now call service log).
Proof.
  intros Hlocal.
  destruct call as [name language|num1 num2 operator|timezone|prompt];
    try (split; [reflexivity|intros; reflexivity]).
  contradiction (Hlocal prompt eq_refl).
Qed.

(** Two requests for an image, one after the other: each sends its own
    request, in order, and the second result is what the second request
    gives when served alone.  Nothing is kept from one to the next, and a
    failure of the first is not retried. *)
Theorem generate_image_twice (prompt1 prompt2 : string) :
  run (first <~ createServer config now (CallGenerateImage prompt1) ;;
       createServer config now (CallGenerateImage prompt2)) service =
    (fst (run (createServer config now (CallGenerateImage prompt2)) service),
     [ image_request (hfToken config) prompt1;
       image_request (hfToken config) prompt2 ]).
Proof.
  unfold run, image_request. serve.
  destruct (service _) as [error1|image1]; simpl;
    destruct (service _) as [error2|image2]; reflexivity.
Qed.

(** The image data is four characters for every three bytes, the last
    group padded. *)
Theorem generate_image_data_length (prompt : string) (image : Blob) :
  service (image_request (hfToken config) prompt) = inr image ->
  exists data annotations,
    fst (run (createServer config now (CallGenerateImage prompt)) service) =
      inr {| content := [ImageContent data "image/png" annotations];
             structuredContent := None;
             isError := None |} /\
    String.length data = 4 * ((List.length image + 2) / 3).
Proof.
  intros Hok. exists (base64 image). eexists. split.
  - apply (generate_image_success {| accessToken := hfToken config |}).
    exact Hok.
  - apply base64_length.
Qed.
End Server.

Lemma local_tools_send_nothing_witness :
  snd (@createServer example_host {| hfToken := "hf_token" |} 0
         (CallCalc 6 3 Times) (png_service foobar)
         [image_request "hf_token" "a cat"]) =
    [image_request "hf_token" "a cat"].
Proof.
  apply (@local_tools_send_nothing example_host {| hfToken := "hf_token" |} 0
           (png_service foobar) (CallCalc 6 3 Times)).
  discriminate.
Defined.

Lemma generate_image_data_length_witness :
  exists data annotations,
    fst (run (@createServer example_host {| hfToken := "hf_token" |} 0
                (CallGenerateImage "a cat")) (png_service jpeg_magic)) =
      inr {| content := [ImageContent data "image/png" annotations];
             structuredContent := None;
             isError := None |} /\
    String.length data = 8.
Proof.
  exact (@generate_image_data_length example_host {| hfToken := "hf_token" |} 0
           (png_service jpeg_magic) "a cat" jpeg_magic eq_refl).
Defined.

(** ** base64, read back *)

Lemma sextet_checked_all : forallb sextet_checked (seq 0 64) = true.
Proof. vm_compute. reflexivity. Qed.

Lemma sextet_char (n : N) :
  exists c,
    sextet n = String c EmptyString /\
    sextet_value c = Some (n mod 64)%N /\
    Ascii.eqb c "=" = false.
Proof.
  pose proof (N.mod_upper_bound n 64 ltac:(discriminate)) as Hlt.
  unfold sextet. set (k := (n mod 64)%N) in *. clearbody k.
  assert (Hin : In (N.to_nat k) (seq 0 64)) by (apply in_seq; lia).
  pose proof (proj1 (forallb_forall _ _) sextet_checked_all _ Hin) as Hcheck.
  unfold sextet_checked in Hcheck.
  destruct (String.substring _ 1 base64_alphabet) as [|c [|? ?]];
    try discriminate Hcheck.
  destruct (sextet_value c) as [v|] eqn:Hv; [|discriminate Hcheck].
  apply andb_true_iff in Hcheck as [Hvalue Hpad].
  apply N.eqb_eq in Hvalue. apply negb_true_iff in Hpad.
  exists c. split; [reflexivity|]. split; [|exact Hpad].
  rewrite Hv, Hvalue. f_equal. lia.
Qed.

Ltac N_div_mod := zify; Z.to_euclidean_division_equations; lia.

(** The sextets of a number below 2^24 put it together again. *)
Lemma sextets_high (n : N) :
  (n < 16777216 ->
   (n / 262144) mod 64 * 64 + (n / 4096) mod 64 = n / 4096)%N.
Proof.
  intros Hn.
  change 262144%N with (4096 * 64)%N. rewrite <- N.Div0.div_div.
  assert (Hq : (n / 4096 < 4096)%N)
    by (apply N.Div0.div_lt_upper_bound; exact Hn).
  set (q := (n / 4096)%N) in *. clearbody q.
  N_div_mod.
Qed.

Lemma sextets_middle (n : N) :
  (n < 16777216 ->
   ((n / 262144) mod 64 * 64 + (n / 4096) mod 64) * 64 + (n / 64) mod 64
   = n / 64)%N.
Proof.
  intros Hn. rewrite (sextets_high n Hn).
  change 4096%N with (64 * 64)%N. rewrite <- N.Div0.div_div.
  set (q := (n / 64)%N). clearbody q.
  N_div_mod.
Qed.

Lemma sextets_all (n : N) :
  (n < 16777216 ->
   (((n / 262144) mod 64 * 64 + (n / 4096) mod 64) * 64 + (n / 64) mod 64) * 64
   + n mod 64 = n)%N.
Proof.
  intros Hn. rewrite (sextets_middle n Hn).
  N_div_mod.
Qed.

Lemma byte_of_to_N (b : byte) (n : N) :
  (n mod 256 = Byte.to_N b)%N -> byte_of n = b.
Proof.
  intros Hn. unfold byte_of. rewrite Hn, Byte.of_to_N. reflexivity.
Qed.

(** Decoding one group of four characters, none of them padding. *)
Lemma base64_decode_group (c1 c2 c3 c4 : ascii) (v1 v2 v3 v4 : N)
    (rest : string) :
  sextet_value c1 = Some v1 -> sextet_value c2 = Some v2 ->
  sextet_value c3 = Some v3 -> sextet_value c4 = Some v4 ->
  Ascii.eqb c3 "=" = false -> Ascii.eqb c4 "=" = false ->
  base64_decode (String c1 (String c2 (String c3 (String c4 rest)))) =
    match base64_decode rest with
    | Some tail =>
        let n := (((v1 * 64 + v2) * 64 + v3) * 64 + v4)%N in
        Some (byte_of (n / 65536) :: byte_of (n / 256) :: byte_of n :: tail)
    | None => None
    end.
Proof.
  intros H1 H2 H3 H4 Hp3 Hp4.
  cbn [base64_decode]. rewrite H1, H2, Hp3, H3, Hp4, H4. reflexivity.
Qed.

(** The bytes are read back from their encoding: the image that the
    service returned can be recovered from the data of the result. *)
Theorem base64_decode_encode (bytes : list byte) :
  base64_decode (base64 bytes) = Some bytes.
Proof.
  induction bytes as [|a|a b|a b c rest IH] using list_ind3.
  - reflexivity.
  - pose proof (Byte.to_N_bounded a) as Ha.
    cbn [base64].
    set (n := (Byte.to_N a * 65536)%N).
    assert (Hn : (n < 16777216)%N) by (subst n; lia).
    destruct (sextet_char (n / 262144)) as (c1 & -> & Hv1 & _).
    destruct (sextet_char (n / 4096)) as (c2 & -> & Hv2 & _).
    cbn [append base64_decode]. rewrite Hv1, Hv2.
    change (Ascii.eqb "=" "=") with true. cbn [andb is_empty].
    rewrite (sextets_high n Hn).
    do 2 f_equal. apply byte_of_to_N.
    rewrite N.Div0.div_div. subst n. cbn [N.mul Pos.mul Pos.add Pos.succ].
    N_div_mod.
  - pose proof (Byte.to_N_bounded a) as Ha.
    pose proof (Byte.to_N_bounded b) as Hb.
    cbn [base64].
    set (n := (Byte.to_N a * 65536 + Byte.to_N b * 256)%N).
    assert (Hn : (n < 16777216)%N) by (subst n; lia).
    destruct (sextet_char (n / 262144)) as (c1 & -> & Hv1 & _).
    destruct (sextet_char (n / 4096)) as (c2 & -> & Hv2 & _).
    destruct (sextet_char (n / 64)) as (c3 & -> & Hv3 & Hp3).
    cbn [append base64_decode]. rewrite Hv1, Hv2, Hp3, Hv3.
    change (Ascii.eqb "=" "=") with true. cbn [is_empty]. cbv zeta.
    rewrite (sextets_middle n Hn).
    do 2 f_equal; [|f_equal]; apply byte_of_to_N;
      rewrite N.Div0.div_div; subst n; cbn [N.mul Pos.mul Pos.add Pos.succ];
      N_div_mod.
  - pose proof (Byte.to_N_bounded a) as Ha.
    pose proof (Byte.to_N_bounded b) as Hb.
    pose proof (Byte.to_N_bounded c) as Hc.
    change (base64 (a :: b :: c :: rest))
      with (let n := (Byte.to_N a * 65536 + Byte.to_N b * 256 + Byte.to_N c)%N in
            sextet (n / 262144) ++ sextet (n / 4096) ++ sextet (n / 64) ++
            sextet n ++ base64 rest).
    cbv zeta.
    set (n := (Byte.to_N a * 65536 + Byte.to_N b * 256 + Byte.to_N c)%N).
    assert (Hn : (n < 16777216)%N) by (subst n; lia).
    destruct (sextet_char (n / 262144)) as (c1 & -> & Hv1 & _).
    destruct (sextet_char (n / 4096)) as (c2 & -> & Hv2 & _).
    destruct (sextet_char (n / 64)) as (c3 & -> & Hv3 & Hp3).
    destruct (sextet_char n) as (c4 & -> & Hv4 & Hp4).
    cbn [append].
    rewrite (base64_decode_group _ _ _ _ _ _ _ _ _ Hv1 Hv2 Hv3 Hv4 Hp3 Hp4).
    rewrite IH. cbv zeta. rewrite (sextets_all n Hn).
    do 2 f_equal; [|f_equal; [|f_equal]]; apply byte_of_to_N; subst n;
      N_div_mod.
Qed.

(** ** Structured content and declared shapes *)

Ltac carried :=
  split; [intros _; split; [reflexivity|discriminate]|intros _; discriminate].
Ltac not_carried :=
  split; [intros H; contradiction H; reflexivity|].

(** A result carries structured content exactly when it is not flagged as
    an error and its tool declares an output shape: generate-image, which
    declares none, never carries any. *)
Theorem structured_content_iff (host : Host) (config : Config) (now : Z)
    (call : ToolCall) (service : Service) (r : ToolResult) :
  fst (run (createServer config now call) service) = inr r ->
  (structuredContent r <> None <->
   is_error r = false /\ outputSchema (descriptor call) <> None).
Proof.
  unfold run.
  destruct call as [name language|num1 num2 operator|timezone|prompt];
    unfold createServer, generate_image, async_try_catch, await, textToImage,
      Blob_arrayBuffer, resolve; simpl.
  - intros [= <-]. carried.
  - intros [= <-]. unfold calc, calc_switch.
    destruct operator; try carried.
    destruct (PrimFloat.eqb num2 0); [|carried].
    not_carried. intros [[=] _].
  - intros [= <-]. unfold current_time, new_DateTimeFormat. simpl.
    destruct (supportedTimeZone timezone); [carried|].
    not_carried. intros [[=] _].
  - destruct (service _) as [error|image]; simpl; intros [= <-];
      not_carried.
    + intros [[=] _].
    + intros [_ H]. contradiction H. reflexivity.
Qed.

Lemma structured_content_iff_witness :
  structuredContent (@current_time example_host 0 "Not/AZone") = None /\
  structuredContent (@current_time example_host 0 "Asia/Seoul") <> None.
Proof.
  pose proof (structured_content_iff example_host {| hfToken := "hf_token" |} 0
                (CallCurrentTime "Not/AZone") (png_service foobar)
                (@current_time example_host 0 "Not/AZone") eq_refl) as Hbad.
  pose proof (structured_content_iff example_host {| hfToken := "hf_token" |} 0
                (CallCurrentTime "Asia/Seoul") (png_service foobar)
                (@current_time example_host 0 "Asia/Seoul") eq_refl) as Hgood.
  split.
  - destruct (structuredContent (@current_time example_host 0 "Not/AZone"))
      as [o|] eqn:Ho; [|reflexivity].
    assert (Hsome : Some o <> None) by discriminate.
    apply Hbad in Hsome. destruct Hsome as [Herr _]. discriminate Herr.
  - apply Hgood. split; [reflexivity|discriminate].
Defined.
